(** * example/macOS/main.go of the vz bindings: resource planning,
    descriptor assembly and the start/stop life cycle.

    The Go program is embedded shallowly.  Calls into the vz package, the
    [os] and [runtime] packages and the files of the example that hold the
    path helpers are not part of main.go: they are the fields of the record
    [Platform], so that every theorem holds for whatever those calls answer.
    [uint] and [uint64] are 64 bits wide (the example only builds for
    macOS on amd64 and arm64), [int] is a signed 64-bit integer. *)

From Stdlib Require Import ZArith List String Bool Lia.
Import ListNotations.
Local Open Scope Z_scope.

(** ** Go values *)

(** A Go [error] value that is not nil.  [PlatformError] stands for the
    errors made outside main.go; [Errorf msg] is [fmt.Errorf(msg)] and
    [ErrorfW msg e] is [fmt.Errorf(msg + ": %w", e)]. *)
Inductive error : Type :=
| PlatformError (code : nat)
| Errorf (msg : string)
| ErrorfW (msg : string) (wrapped : error).

(** A value of Go type [error]: [None] is nil. *)
Definition goerror : Type := option error.

(** A Go function returning [(T, error)] that returns a nil error with a
    value, or a non-nil error with no value. *)
Inductive result (T : Type) : Type :=
| Ok (v : T)
| Err (e : error).
Arguments Ok {T} v.
Arguments Err {T} e.

Definition is_err {T : Type} (r : result T) : bool :=
  match r with Ok _ => false | Err _ => true end.

(** Conversions to the unsigned and signed 64-bit types. *)
Definition uint_modulus : Z := 2 ^ 64.
Definition to_uint (z : Z) : Z := z mod uint_modulus.
Definition max_int : Z := 2 ^ 63 - 1.
Definition to_int (z : Z) : Z := (z + 2 ^ 63) mod 2 ^ 64 - 2 ^ 63.

(** ** The descriptor built by the vz constructors *)

Inductive BootLoader : Type := MacOSBootLoader.

Inductive Attachment : Type :=
| DiskImageStorageDeviceAttachment (handle : nat) (path : string) (readOnly : bool).

Inductive StorageDeviceConfiguration : Type :=
| VirtioBlockDeviceConfiguration (a : Attachment).

Inductive GraphicsDisplay : Type :=
| MacGraphicsDisplayConfiguration (width height pixelsPerInch : Z).

Inductive GraphicsDeviceConfiguration : Type :=
| MacGraphicsDeviceConfiguration (displays : list GraphicsDisplay).

Inductive NetworkAttachment : Type := NATNetworkDeviceAttachment.

Inductive NetworkDeviceConfiguration : Type :=
| VirtioNetworkDeviceConfiguration (a : NetworkAttachment).

Inductive PointingDeviceConfiguration : Type :=
| USBScreenCoordinatePointingDeviceConfiguration.

Inductive KeyboardConfiguration : Type := USBKeyboardConfiguration.

Inductive SoundStream : Type :=
| VirtioSoundDeviceHostInputStreamConfiguration
| VirtioSoundDeviceHostOutputStreamConfiguration.

Inductive AudioDeviceConfiguration : Type :=
| VirtioSoundDeviceConfiguration (streams : list SoundStream).

(** The three identity artifacts, opaque handles made by the platform. *)
Record MacPlatformConfiguration : Type := {
  auxiliaryStorage : nat;
  hardwareModel : nat;
  machineIdentifier : nat
}.

Record VirtualMachineConfiguration : Type := {
  bootLoader : BootLoader;
  cpuCount : Z;
  memorySize : Z;
  platformConfiguration : option MacPlatformConfiguration;
  graphicsDevices : list GraphicsDeviceConfiguration;
  storageDevices : list StorageDeviceConfiguration;
  networkDevices : list NetworkDeviceConfiguration;
  pointingDevices : list PointingDeviceConfiguration;
  keyboards : list KeyboardConfiguration;
  audioDevices : list AudioDeviceConfiguration
}.

(** ** What main.go calls and does not define *)

Record Platform : Type := {
  (* runtime.NumCPU(), an int *)
  NumCPU : Z;
  (* vz.VirtualMachineConfiguration{Minimum,Maximum}Allowed{CPUCount,MemorySize}() *)
  MinimumAllowedCPUCount : Z;
  MaximumAllowedCPUCount : Z;
  MinimumAllowedMemorySize : Z;
  MaximumAllowedMemorySize : Z;
  (* vz.CreateDiskImage(path, size) *)
  CreateDiskImage : string -> Z -> goerror;
  (* os.IsExist(err), called on non-nil errors only *)
  IsExist : error -> bool;
  (* vz.NewDiskImageStorageDeviceAttachment(path, readOnly) *)
  NewDiskImageStorageDeviceAttachment : string -> bool -> result Attachment;
  (* the path helpers of the example *)
  GetDiskImagePath : string;
  GetAuxiliaryStoragePath : string;
  GetHardwareModelPath : string;
  GetMachineIdentifierPath : string;
  (* vz.NewMacAuxiliaryStorage and the two WithDataPath constructors *)
  NewMacAuxiliaryStorage : string -> result nat;
  NewMacHardwareModelWithDataPath : string -> result nat;
  NewMacMachineIdentifierWithDataPath : string -> result nat;
  (* config.Validate() *)
  Validate : VirtualMachineConfiguration -> bool * goerror
}.

(** ** Resource planner *)

(** Lines 111-118 and 125-132: the two comparisons both planning functions
    run on their candidate value, the maximum first and the minimum last. *)
Definition clampAllowed (v maxAllowed minAllowed : Z) : Z :=
  let v := if v >? maxAllowed then maxAllowed else v in
  let v := if v <? minAllowed then minAllowed else v in
  v.

Definition computeCPUCount (p : Platform) : Z :=
  let totalAvailableCPUs := NumCPU p in
  let virtualCPUCount := to_uint (totalAvailableCPUs - 1) in
  let virtualCPUCount := if virtualCPUCount <=? 1 then 1 else virtualCPUCount in
  let maxAllowed := MaximumAllowedCPUCount p in
  let virtualCPUCount :=
    if virtualCPUCount >? maxAllowed then maxAllowed else virtualCPUCount in
  let minAllowed := MinimumAllowedCPUCount p in
  let virtualCPUCount :=
    if virtualCPUCount <? minAllowed then minAllowed else virtualCPUCount in
  virtualCPUCount.

Definition GiB : Z := 1024 * 1024 * 1024.
Definition MiB : Z := 1024 * 1024.

Definition computeMemorySize (p : Platform) : Z :=
  let memorySize := to_uint (4 * 1024 * 1024 * 1024) in
  let maxAllowed := MaximumAllowedMemorySize p in
  let memorySize := if memorySize >? maxAllowed then maxAllowed else memorySize in
  let minAllowed := MinimumAllowedMemorySize p in
  let memorySize := if memorySize <? minAllowed then minAllowed else memorySize in
  memorySize.

(** The clamp as the specification words it. *)
Definition clamp_spec (c lo hi : Z) : Z := Z.max lo (Z.min c hi).

(** The default request for the CPU count: host cores minus one, floored to 1. *)
Definition default_cpu_request (h : Z) : Z := Z.max (h - 1) 1.

(** ** Configuration assembler *)

(** Lines 144-152: the attachment over the given path, wrapped in a block
    device, or the attachment's error as it is. *)
Definition attach (p : Platform) (diskPath : string)
  : result StorageDeviceConfiguration :=
  match NewDiskImageStorageDeviceAttachment p diskPath false with
  | Err err => Err err
  | Ok diskImageAttachment =>
      Ok (VirtioBlockDeviceConfiguration diskImageAttachment)
  end.

Definition createBlockDeviceConfiguration (p : Platform) (diskPath : string)
  : result StorageDeviceConfiguration :=
  match CreateDiskImage p diskPath (64 * 1024 * 1024 * 1024) with
  | Some err =>
      if negb (IsExist p err)
      then Err (ErrorfW "failed to create disk image" err)
      else attach p diskPath
  | None => attach p diskPath
  end.

Definition createGraphicsDeviceConfiguration : GraphicsDeviceConfiguration :=
  MacGraphicsDeviceConfiguration [MacGraphicsDisplayConfiguration 1920 1200 80].

Definition createNetworkDeviceConfiguration : NetworkDeviceConfiguration :=
  VirtioNetworkDeviceConfiguration NATNetworkDeviceAttachment.

Definition createPointingDeviceConfiguration : PointingDeviceConfiguration :=
  USBScreenCoordinatePointingDeviceConfiguration.

Definition createKeyboardConfiguration : KeyboardConfiguration :=
  USBKeyboardConfiguration.

Definition createAudioDeviceConfiguration : AudioDeviceConfiguration :=
  VirtioSoundDeviceConfiguration
    [VirtioSoundDeviceHostInputStreamConfiguration;
     VirtioSoundDeviceHostOutputStreamConfiguration].

Definition createMacPlatformConfiguration (p : Platform)
  : result MacPlatformConfiguration :=
  match NewMacAuxiliaryStorage p (GetAuxiliaryStoragePath p) with
  | Err err => Err (ErrorfW "failed to create a new mac auxiliary storage" err)
  | Ok aux =>
      match NewMacHardwareModelWithDataPath p (GetHardwareModelPath p) with
      | Err err => Err (ErrorfW "failed to create a new hardware model" err)
      | Ok hw =>
          match NewMacMachineIdentifierWithDataPath p (GetMachineIdentifierPath p) with
          | Err err => Err (ErrorfW "failed to create a new machine identifier" err)
          | Ok mid =>
              Ok {| auxiliaryStorage := aux;
                    hardwareModel := hw;
                    machineIdentifier := mid |}
          end
      end
  end.

(** The descriptor as it stands when [config.Validate()] is called, given the
    block device that was made. *)
Definition assembled (p : Platform) (platformConfig : MacPlatformConfiguration)
    (blockDeviceConfig : StorageDeviceConfiguration) : VirtualMachineConfiguration :=
  {| bootLoader := MacOSBootLoader;
     cpuCount := computeCPUCount p;
     memorySize := computeMemorySize p;
     platformConfiguration := Some platformConfig;
     graphicsDevices := [createGraphicsDeviceConfiguration];
     storageDevices := [blockDeviceConfig];
     networkDevices := [createNetworkDeviceConfiguration];
     pointingDevices := [createPointingDeviceConfiguration];
     keyboards := [createKeyboardConfiguration];
     audioDevices := [createAudioDeviceConfiguration] |}.

Definition setupVMConfiguration (p : Platform)
    (platformConfig : MacPlatformConfiguration)
  : result VirtualMachineConfiguration :=
  match createBlockDeviceConfiguration p (GetDiskImagePath p) with
  | Err err => Err (ErrorfW "failed to create block device configuration" err)
  | Ok blockDeviceConfig =>
      let config := assembled p platformConfig blockDeviceConfig in
      match Validate p config with
      | (_, Some err) => Err (ErrorfW "failed to validate configuration" err)
      | (validated, None) =>
          if negb validated
          then Err (Errorf "invalid configuration")
          else Ok config
      end
  end.

(** ** Life cycle: the cleanup closure of runVM *)

Inductive VirtualMachineState : Type :=
| VirtualMachineStateStopped
| VirtualMachineStateRunning
| VirtualMachineStatePaused
| VirtualMachineStateError
| VirtualMachineStateStarting
| VirtualMachineStatePausing
| VirtualMachineStateResuming
| VirtualMachineStateStopping.

(** What the main goroutine does, in program order.  The callback handed to
    [vm.Stop] only logs and is left out. *)
Inductive Event : Type :=
| EvLockOSThread
| EvUnlockOSThread
| EvNewVirtualMachine (config : VirtualMachineConfiguration)
| EvStart
| EvGoMerge
| EvStartGraphicApplication (width height : Z)
| EvCanRequestStop (answer : bool)
| EvRequestStop (result : bool) (err : goerror)
| EvLogStopRequest (i : Z) (result : bool) (err : goerror)
| EvSleep (seconds : Z)
| EvLog (msg : string)
| EvStop
| EvRecvErrCh (v : goerror).

(** One evaluation of the loop condition [vm.CanRequestStop()] together with,
    when it is true, what the [vm.RequestStop()] of that iteration returns. *)
Inductive StopPoll : Type :=
| NotPermissible
| Permissible (result : bool) (err : goerror).

(** The body of one iteration, lines 80-90, with counter [i]. *)
Definition cleanup_body (i : Z) (result : bool) (err : goerror) : list Event :=
  [EvRequestStop result err; EvLogStopRequest i result err; EvSleep 3]
  ++ (if i >? 3 then [EvLog "call stop"; EvStop] else []).

(** The loop [for i := 1; vm.CanRequestStop(); i++] from counter [i] on.  The
    list holds the platform's answers in the order the loop asks; [None] says
    that every answer supplied was used and the loop has not exited. *)
Fixpoint cleanup_from (i : Z) (polls : list StopPoll) : option (list Event) :=
  match polls with
  | [] => None
  | NotPermissible :: _ =>
      Some [EvCanRequestStop false; EvLog "finished cleanup"]
  | Permissible result err :: rest =>
      match cleanup_from (to_int (i + 1)) rest with
      | None => None
      | Some tr => Some (EvCanRequestStop true :: cleanup_body i result err ++ tr)
      end
  end.

Definition cleanup (polls : list StopPoll) : option (list Event) :=
  cleanup_from 1 polls.

(** The events of the permitted iterations numbered [i], [i+1], ... *)
Fixpoint iterations (i : Z) (pre : list StopPoll) : list Event :=
  match pre with
  | Permissible result err :: rest =>
      EvCanRequestStop true :: cleanup_body i result err
        ++ iterations (to_int (i + 1)) rest
  | _ => []
  end.

Definition is_forced_stop (e : Event) : bool :=
  match e with EvStop => true | _ => false end.

Definition is_stop_request (e : Event) : bool :=
  match e with EvRequestStop _ _ => true | _ => false end.

Definition is_sleep (e : Event) : bool :=
  match e with EvSleep _ => true | _ => false end.

Definition forced_stops (tr : list Event) : nat :=
  List.length (filter is_forced_stop tr).

Definition stop_requests (tr : list Event) : nat :=
  List.length (filter is_stop_request tr).

Definition backoffs (tr : list Event) : nat :=
  List.length (filter is_sleep tr).

Definition is_permissible (q : StopPoll) : bool :=
  match q with Permissible _ _ => true | NotPermissible => false end.

(** ** Life cycle: errCh, the Start callback and the merge goroutine *)

(** Where the goroutine of lines 58-75 stands. *)
Inductive MergerState : Type :=
| MSelect                         (* blocked in the select *)
| MSendNil                        (* line 67, about to send nil *)
| MSendWrapped (err : goerror)    (* line 71, about to send the wrapped error *)
| MReturned.

(** A terminal signal taken by the merge loop. *)
Inductive TerminalSignal : Type :=
| TermNotification (st : VirtualMachineState)
| TermCompletion (err : goerror).

Record Session : Type := {
  (* the buffer of errCh, a channel of capacity 1 *)
  errCh : option goerror;
  (* the error the platform passes to the Start callback, until it has run *)
  startCompletion : option goerror;
  (* the states the platform delivers on StateChangedNotify(), in order *)
  notifications : list VirtualMachineState;
  merger : MergerState;
  (* the terminal signals the merge loop has taken, latest first *)
  observed : list TerminalSignal;
  (* the value received at line 101, once received *)
  mainResult : option goerror
}.

Definition initial (completion : option goerror)
    (feed : list VirtualMachineState) : Session :=
  {| errCh := None;
     startCompletion := completion;
     notifications := feed;
     merger := MSelect;
     observed := [];
     mainResult := None |}.

(** [fmt.Errorf("failed to start vm: %w", err)] *)
Definition wrapStartError (err : goerror) : error :=
  match err with
  | Some e => ErrorfW "failed to start vm" e
  | None => Errorf "failed to start vm: %!w(<nil>)"
  end.

Definition is_stop_state (st : VirtualMachineState) : bool :=
  match st with
  | VirtualMachineStateStopped | VirtualMachineStateStopping => true
  | _ => false
  end.

(** The atomic steps of the three threads. *)
Inductive Move : Type :=
| MvCallback       (* lines 52-56: the Start callback runs *)
| MvNotification   (* line 61: the select takes a state *)
| MvCompletion     (* line 70: the select takes a value from errCh *)
| MvMergerSend     (* line 67 or 71: the send to errCh *)
| MvMainReceive.   (* line 101 *)

(** One step; [None] when the thread cannot move (a send on the full
    channel, a receive on the empty one, a thread that has finished). *)
Definition step (m : Move) (s : Session) : option Session :=
  match m with
  | MvCallback =>
      match startCompletion s with
      | None => None
      | Some None =>
          Some {| errCh := errCh s; startCompletion := None;
                  notifications := notifications s; merger := merger s;
                  observed := observed s; mainResult := mainResult s |}
      | Some (Some err) =>
          match errCh s with
          | Some _ => None
          | None =>
              Some {| errCh := Some (Some err); startCompletion := None;
                      notifications := notifications s; merger := merger s;
                      observed := observed s; mainResult := mainResult s |}
          end
      end
  | MvNotification =>
      match merger s, notifications s with
      | MSelect, newState :: rest =>
          if is_stop_state newState
          then Some {| errCh := errCh s; startCompletion := startCompletion s;
                       notifications := rest; merger := MSendNil;
                       observed := TermNotification newState :: observed s;
                       mainResult := mainResult s |}
          else Some {| errCh := errCh s; startCompletion := startCompletion s;
                       notifications := rest; merger := MSelect;
                       observed := observed s; mainResult := mainResult s |}
      | _, _ => None
      end
  | MvCompletion =>
      match merger s, errCh s with
      | MSelect, Some err =>
          Some {| errCh := None; startCompletion := startCompletion s;
                  notifications := notifications s; merger := MSendWrapped err;
                  observed := TermCompletion err :: observed s;
                  mainResult := mainResult s |}
      | _, _ => None
      end
  | MvMergerSend =>
      match errCh s with
      | Some _ => None
      | None =>
          match merger s with
          | MSendNil =>
              Some {| errCh := Some None; startCompletion := startCompletion s;
                      notifications := notifications s; merger := MReturned;
                      observed := observed s; mainResult := mainResult s |}
          | MSendWrapped err =>
              Some {| errCh := Some (Some (wrapStartError err));
                      startCompletion := startCompletion s;
                      notifications := notifications s; merger := MReturned;
                      observed := observed s; mainResult := mainResult s |}
          | _ => None
          end
      end
  | MvMainReceive =>
      match mainResult s, errCh s with
      | None, Some v =>
          Some {| errCh := None; startCompletion := startCompletion s;
                  notifications := notifications s; merger := merger s;
                  observed := observed s; mainResult := Some v |}
      | _, _ => None
      end
  end.

(** A schedule is the order in which the threads are given the processor; a
    thread that cannot move when chosen leaves the session as it is. *)
Definition advance (s : Session) (m : Move) : Session :=
  match step m s with Some s' => s' | None => s end.

Definition exec (sched : list Move) (s : Session) : Session :=
  fold_left advance sched s.

(** Two invariants of the sessions. *)

(** The merge loop is either still in its select and has taken no terminal
    signal, or has left it and has taken exactly one. *)
Definition one_terminal (s : Session) : Prop :=
  match merger s with
  | MSelect => observed s = []
  | _ => List.length (observed s) = 1%nat
  end.

(** The merge goroutine has returned after sending nil, and that nil is
    either still in errCh or is what line 101 received. *)
Definition success_delivered (s : Session) : Prop :=
  merger s = MReturned
  /\ ((mainResult s = None /\ errCh s = Some None) \/ mainResult s = Some None).

(** ** run and runVM *)

(** A [context.Context], as far as cancellation goes: the number of events of
    the main goroutine after which [Done()] is closed, if it ever is. *)
Record Context : Type := {
  ctxDoneAfter : option nat
}.

Definition Background : Context := {| ctxDoneAfter := None |}.

(** How a call of [run] ends. *)
Inductive Outcome : Type :=
| Returned (err : goerror) (trace : list Event)
| LoopingInCleanup
| BlockedOnErrCh (trace : list Event).

(** Everything outside main.go that one call of [run] meets. *)
Record World : Type := {
  platform : Platform;
  (* the -install flag *)
  install : bool;
  (* installMacOS, defined in another file of the example *)
  installMacOS : Context -> Outcome;
  (* the error passed to the Start callback; None when it is never called *)
  startResult : option goerror;
  (* the states delivered on StateChangedNotify() *)
  stateFeed : list VirtualMachineState;
  (* the answers to the polls of the cleanup loop *)
  stopPolls : list StopPoll;
  (* the interleaving of the callback, the merge goroutine and line 101 *)
  schedule : list Move
}.

(** Lines 48-97, up to the return of [vm.StartGraphicApplication]. *)
Definition launch (config : VirtualMachineConfiguration) : list Event :=
  [EvLockOSThread; EvNewVirtualMachine config; EvStart; EvGoMerge;
   EvLockOSThread; EvStartGraphicApplication 960 600; EvUnlockOSThread].

Definition runVM (ctx : Context) (w : World) : Outcome :=
  match createMacPlatformConfiguration (platform w) with
  | Err err => Returned (Some err) [EvLockOSThread; EvUnlockOSThread]
  | Ok platformConfig =>
      match setupVMConfiguration (platform w) platformConfig with
      | Err err => Returned (Some err) [EvLockOSThread; EvUnlockOSThread]
      | Ok config =>
          match cleanup (stopPolls w) with
          | None => LoopingInCleanup
          | Some tr =>
              let s := exec (schedule w) (initial (startResult w) (stateFeed w)) in
              match mainResult s with
              | None => BlockedOnErrCh (launch config ++ tr)
              | Some v =>
                  Returned v (launch config ++ tr
                              ++ [EvRecvErrCh v; EvUnlockOSThread])
              end
          end
      end
  end.

Definition run (ctx : Context) (w : World) : Outcome :=
  if install w then installMacOS w ctx else runVM ctx w.

(** What a call of [run] returns, when it returns. *)
Definition verdict (o : Outcome) : option goerror :=
  match o with
  | Returned err _ => Some err
  | LoopingInCleanup | BlockedOnErrCh _ => None
  end.

(** ** main *)

(** How the process ends: the exit status, with the error printed on
    standard error after "failed to run: " when there is one. *)
Inductive ProcessEnd : Type :=
| Exited (code : Z) (reported : goerror)
| NeverExits.

(** Lines 21-27.  [flag.Parse()] has filled in [install]; [run] is called
    with [context.Background()]. *)
Definition main (w : World) : ProcessEnd :=
  match run Background w with
  | Returned (Some err) _ => Exited 1 (Some err)
  | Returned None _ => Exited 0 None
  | LoopingInCleanup | BlockedOnErrCh _ => NeverExits
  end.

(** ** Measures and invariants used in the theorems *)

Definition is_lock (e : Event) : bool :=
  match e with EvLockOSThread => true | _ => false end.

Definition is_unlock (e : Event) : bool :=
  match e with EvUnlockOSThread => true | _ => false end.

Definition locks (tr : list Event) : nat := List.length (filter is_lock tr).

Definition unlocks (tr : list Event) : nat := List.length (filter is_unlock tr).

Definition is_running_on (st : VirtualMachineState) : bool :=
  negb (is_stop_state st).

(** The value is the error the platform passes to the Start callback. *)
Definition start_error (completion : option goerror) (v : goerror) : Prop :=
  exists e, completion = Some (Some e) /\ v = Some e.

(** The value is nil, the error of the Start callback, or that error wrapped
    by the merge loop. *)
Definition reportable (completion : option goerror) (v : goerror) : Prop :=
  v = None
  \/ exists e, completion = Some (Some e)
               /\ (v = Some e \/ v = Some (ErrorfW "failed to start vm" e)).

(** Every value in flight comes from the Start callback or the merge loop. *)
Definition values_accounted (completion : option goerror) (s : Session) : Prop :=
  (startCompletion s = None \/ startCompletion s = completion)
  /\ (forall v, errCh s = Some v -> reportable completion v)
  /\ (merger s = MSelect -> forall v, errCh s = Some v -> start_error completion v)
  /\ (forall v, merger s = MSendWrapped v -> start_error completion v)
  /\ (forall v, mainResult s = Some v -> reportable completion v).

(** The course of a session by what the merge loop took.  While the loop is
    in its select, only the Start callback can have sent, and line 101 has
    received nothing as long as that value is in errCh or still to come; once
    the loop has taken the callback's error, the wrapped error is the only
    value left to travel. *)
Definition completion_first (s : Session) : Prop :=
  match merger s with
  | MSelect =>
      observed s = []
      /\ (startCompletion s <> None -> errCh s = None /\ mainResult s = None)
      /\ (forall v, errCh s = Some v -> mainResult s = None)
  | MSendNil => exists st, observed s = [TermNotification st]
  | MSendWrapped err =>
      observed s = [TermCompletion err]
      /\ errCh s = None /\ startCompletion s = None /\ mainResult s = None
  | MReturned =>
      (exists st, observed s = [TermNotification st])
      \/ (exists err,
             observed s = [TermCompletion err]
             /\ startCompletion s = None
             /\ ((errCh s = Some (Some (wrapStartError err))
                  /\ mainResult s = None)
                 \/ (errCh s = None
                     /\ mainResult s = Some (Some (wrapStartError err)))))
  end.

(** Nothing has been sent or taken: the start did not fail and no stop state
    is left to deliver. *)
Definition nothing_to_report (s : Session) : Prop :=
  errCh s = None
  /\ merger s = MSelect
  /\ mainResult s = None
  /\ (startCompletion s = None \/ startCompletion s = Some None)
  /\ forallb is_running_on (notifications s) = true.

(** The schedule that lets the merge loop take [n] notifications, send, and
    then lets line 101 receive. *)
Definition deliver (n : nat) : list Move :=
  repeat MvNotification n ++ [MvMergerSend; MvMainReceive].

(** ** Concrete surroundings used in the examples *)

Definition examplePlatform (cores minCPU maxCPU minMem maxMem : Z)
    (created : goerror) (validated : bool * goerror) : Platform :=
  {| NumCPU := cores;
     MinimumAllowedCPUCount := minCPU;
     MaximumAllowedCPUCount := maxCPU;
     MinimumAllowedMemorySize := minMem;
     MaximumAllowedMemorySize := maxMem;
     CreateDiskImage := fun _ _ => created;
     IsExist := fun e => match e with PlatformError 17 => true | _ => false end;
     NewDiskImageStorageDeviceAttachment :=
       fun path readOnly => Ok (DiskImageStorageDeviceAttachment 0 path readOnly);
     GetDiskImagePath := "disk.img";
     GetAuxiliaryStoragePath := "aux.img";
     GetHardwareModelPath := "hardware_model.bin";
     GetMachineIdentifierPath := "machine_identifier.bin";
     NewMacAuxiliaryStorage := fun _ => Ok 1%nat;
     NewMacHardwareModelWithDataPath := fun _ => Ok 2%nat;
     NewMacMachineIdentifierWithDataPath := fun _ => Ok 3%nat;
     Validate := fun _ => validated |}.

Definition examplePlatformConfig : MacPlatformConfiguration :=
  {| auxiliaryStorage := 1; hardwareModel := 2; machineIdentifier := 3 |}.

Definition exampleWorld (polls : list StopPoll) (completion : option goerror)
    (feed : list VirtualMachineState) (sched : list Move) : World :=
  {| platform := examplePlatform 5 1 8 (512 * MiB) (8 * GiB) None (true, None);
     install := false;
     installMacOS := fun _ => Returned None [];
     startResult := completion;
     stateFeed := feed;
     stopPolls := polls;
     schedule := sched |}.

(** ** The claims that do not hold of the code, as they are worded *)

(** The forced stop is issued at most once in a shutdown sequence. *)
Definition forced_stop_at_most_once : Prop :=
  forall polls tr, cleanup polls = Some tr -> (forced_stops tr <= 1)%nat.

(** A poll answered "not permissible" is skipped and the attempt is made
    again: a permissible answer that follows gets its stop request. *)
Definition refused_attempt_is_retried : Prop :=
  forall result err rest tr,
    cleanup (NotPermissible :: Permissible result err :: rest) = Some tr ->
    In (EvRequestStop result err) tr.

(** When the merge loop has taken a Stopped or Stopping notification as its
    terminal signal, the value [run] receives is nil. *)
Definition observed_success_is_reported : Prop :=
  forall completion feed sched st v,
    let s := exec sched (initial completion feed) in
    observed s = [TermNotification st] ->
    mainResult s = Some v ->
    v = None.

(** Inverted bounds make the assembly fail. *)
Definition inverted_bounds_are_an_error : Prop :=
  forall p platformConfig,
    MinimumAllowedCPUCount p > MaximumAllowedCPUCount p \/
    MinimumAllowedMemorySize p > MaximumAllowedMemorySize p ->
    is_err (setupVMConfiguration p platformConfig) = true.


(** * Theorems *)

(** ** Resource planner *)

Section Planner.

Lemma clampAllowed_spec (v maxAllowed minAllowed : Z) :
  clampAllowed v maxAllowed minAllowed = clamp_spec v minAllowed maxAllowed.
Proof.
  unfold clampAllowed, clamp_spec.
  destruct (Z.gtb_spec v maxAllowed) as [Hgt | Hle].
  - rewrite (Z.min_r v maxAllowed) by lia.
    destruct (Z.ltb_spec maxAllowed minAllowed); lia.
  - rewrite (Z.min_l v maxAllowed) by lia.
    destruct (Z.ltb_spec v minAllowed); lia.
Qed.

Lemma clamp_spec_idempotent (c lo hi : Z) :
  clamp_spec (clamp_spec c lo hi) lo hi = clamp_spec c lo hi.
Proof. unfold clamp_spec. lia. Qed.

Lemma to_uint_small (z : Z) : 0 <= z < uint_modulus -> to_uint z = z.
Proof. intros Hz. unfold to_uint. apply Z.mod_small. exact Hz. Qed.

Lemma computeCPUCount_clampAllowed (p : Platform) :
  computeCPUCount p =
  clampAllowed
    (if to_uint (NumCPU p - 1) <=? 1 then 1 else to_uint (NumCPU p - 1))
    (MaximumAllowedCPUCount p) (MinimumAllowedCPUCount p).
Proof. reflexivity. Qed.

Lemma computeMemorySize_clampAllowed (p : Platform) :
  computeMemorySize p =
  clampAllowed (4 * GiB) (MaximumAllowedMemorySize p) (MinimumAllowedMemorySize p).
Proof. reflexivity. Qed.

Lemma floor_is_default_request (h : Z) :
  1 <= h <= max_int ->
  (if to_uint (h - 1) <=? 1 then 1 else to_uint (h - 1)) = default_cpu_request h.
Proof.
  intros Hh. unfold max_int in Hh.
  rewrite to_uint_small by (unfold uint_modulus; lia).
  unfold default_cpu_request.
  destruct (Z.leb_spec (h - 1) 1); lia.
Qed.

Lemma clampAllowed_inverted (v maxAllowed minAllowed : Z) :
  minAllowed > maxAllowed -> clampAllowed v maxAllowed minAllowed = minAllowed.
Proof.
  intros Hinv. rewrite clampAllowed_spec. unfold clamp_spec. lia.
Qed.

(** C5: for a host with H >= 1 logical cores the planned CPU count is
    max(min, min(C, max)) with C = H - 1 floored to 1; running the two
    comparisons again on the planned value, or the clamp of the
    specification on its own result, changes nothing; and min = 1, max = 8,
    H = 5 plans 4 CPUs.  (The bounds need not be ordered for any of this.) *)
Theorem computeCPUCount_is_clamp (p : Platform) :
  1 <= NumCPU p <= max_int ->
  computeCPUCount p =
    clamp_spec (default_cpu_request (NumCPU p))
      (MinimumAllowedCPUCount p) (MaximumAllowedCPUCount p)
  /\ clampAllowed (computeCPUCount p)
       (MaximumAllowedCPUCount p) (MinimumAllowedCPUCount p) = computeCPUCount p
  /\ (forall c lo hi, clamp_spec (clamp_spec c lo hi) lo hi = clamp_spec c lo hi)
  /\ (NumCPU p = 5 -> MinimumAllowedCPUCount p = 1 ->
      MaximumAllowedCPUCount p = 8 -> computeCPUCount p = 4).
Proof.
  intros Hh.
  assert (Heq : computeCPUCount p =
                clamp_spec (default_cpu_request (NumCPU p))
                  (MinimumAllowedCPUCount p) (MaximumAllowedCPUCount p)).
  { rewrite computeCPUCount_clampAllowed, floor_is_default_request by exact Hh.
    apply clampAllowed_spec. }
  split; [exact Heq |].
  split.
  { rewrite clampAllowed_spec, Heq. apply clamp_spec_idempotent. }
  split; [exact clamp_spec_idempotent |].
  intros H5 Hmin Hmax. rewrite Heq, H5, Hmin, Hmax. reflexivity.
Qed.

Lemma computeCPUCount_is_clamp_witness :
  computeCPUCount (examplePlatform 5 1 8 (512 * MiB) (8 * GiB) None (true, None)) = 4.
Proof.
  pose (p := examplePlatform 5 1 8 (512 * MiB) (8 * GiB) None (true, None)).
  assert (Hh : 1 <= NumCPU p <= max_int) by (vm_compute; split; discriminate).
  destruct (computeCPUCount_is_clamp p Hh) as [_ [_ [_ Hex]]].
  apply Hex; reflexivity.
Defined.

(** C8: the planned memory size is the default of 4 GiB clamped into the
    platform's bounds, max(min, min(4 GiB, max)); with min = 512 MiB and
    max = 8 GiB it is 4 GiB. *)
Theorem computeMemorySize_is_clamp (p : Platform) :
  computeMemorySize p =
    clamp_spec (4 * GiB) (MinimumAllowedMemorySize p) (MaximumAllowedMemorySize p)
  /\ (MinimumAllowedMemorySize p = 512 * MiB ->
      MaximumAllowedMemorySize p = 8 * GiB ->
      computeMemorySize p = 4 * GiB).
Proof.
  assert (Heq : computeMemorySize p =
                clamp_spec (4 * GiB) (MinimumAllowedMemorySize p)
                  (MaximumAllowedMemorySize p)).
  { rewrite computeMemorySize_clampAllowed. apply clampAllowed_spec. }
  split; [exact Heq |].
  intros Hmin Hmax. rewrite Heq, Hmin, Hmax. reflexivity.
Qed.

Lemma computeMemorySize_is_clamp_witness :
  computeMemorySize (examplePlatform 5 1 8 (512 * MiB) (8 * GiB) None (true, None))
  = 4 * GiB.
Proof.
  apply (computeMemorySize_is_clamp
           (examplePlatform 5 1 8 (512 * MiB) (8 * GiB) None (true, None)));
    reflexivity.
Defined.

(** C10: with inverted bounds, min > max, both planning functions return
    exactly min, for every host core count; they are total functions into the
    unsigned integers and have no error result. *)
Theorem inverted_bounds_plan_min (p : Platform) :
  (MinimumAllowedCPUCount p > MaximumAllowedCPUCount p ->
   computeCPUCount p = MinimumAllowedCPUCount p)
  /\ (MinimumAllowedMemorySize p > MaximumAllowedMemorySize p ->
      computeMemorySize p = MinimumAllowedMemorySize p).
Proof.
  split; intros Hinv.
  - rewrite computeCPUCount_clampAllowed.
    now apply clampAllowed_inverted.
  - rewrite computeMemorySize_clampAllowed.
    now apply clampAllowed_inverted.
Qed.

Lemma inverted_bounds_plan_min_witness :
  computeCPUCount (examplePlatform 5 4 2 (8 * GiB) (2 * GiB) None (true, None)) = 4
  /\ computeMemorySize (examplePlatform 5 4 2 (8 * GiB) (2 * GiB) None (true, None))
     = 8 * GiB.
Proof.
  pose (p := examplePlatform 5 4 2 (8 * GiB) (2 * GiB) None (true, None)).
  destruct (inverted_bounds_plan_min p) as [Hcpu Hmem].
  split; [apply Hcpu | apply Hmem]; reflexivity.
Defined.

End Planner.

(** ** Configuration assembler *)

Section Assembler.

Variable p : Platform.

Lemma createBlockDevice_created (diskPath : string) :
  CreateDiskImage p diskPath (64 * GiB) = None ->
  createBlockDeviceConfiguration p diskPath = attach p diskPath.
Proof.
  intros Hc. unfold createBlockDeviceConfiguration, attach.
  change (64 * 1024 * 1024 * 1024) with (64 * GiB). rewrite Hc. reflexivity.
Qed.



Variable platformConfig : MacPlatformConfiguration.

Lemma setupVMConfiguration_validated (dev : StorageDeviceConfiguration) :
  createBlockDeviceConfiguration p (GetDiskImagePath p) = Ok dev ->
  setupVMConfiguration p platformConfig =
  match Validate p (assembled p platformConfig dev) with
  | (_, Some err) => Err (ErrorfW "failed to validate configuration" err)
  | (false, None) => Err (Errorf "invalid configuration")
  | (true, None) => Ok (assembled p platformConfig dev)
  end.
Proof.
  intros Hdev. unfold setupVMConfiguration. rewrite Hdev.
  destruct (Validate p (assembled p platformConfig dev)) as [[|] [err|]];
    reflexivity.
Qed.

(** C6: once the descriptor is assembled, a validation that answers
    (false, nil) makes setupVMConfiguration return the error "invalid
    configuration" and no descriptor, and a validation that answers a
    non-nil error makes it return that error wrapped as "failed to validate
    configuration", whatever the boolean is. *)
Theorem validation_outcome_is_surfaced (dev : StorageDeviceConfiguration) :
  createBlockDeviceConfiguration p (GetDiskImagePath p) = Ok dev ->
  (Validate p (assembled p platformConfig dev) = (false, None) ->
     setupVMConfiguration p platformConfig = Err (Errorf "invalid configuration"))
  /\ (forall validated err,
        Validate p (assembled p platformConfig dev) = (validated, Some err) ->
        setupVMConfiguration p platformConfig
        = Err (ErrorfW "failed to validate configuration" err)).
Proof.
  intros Hdev. rewrite (setupVMConfiguration_validated dev Hdev).
  split.
  - intros Hv. rewrite Hv. reflexivity.
  - intros validated err Hv. rewrite Hv. destruct validated; reflexivity.
Qed.

(** C4, as the code has it: the planner has no error case.  With inverted
    bounds a descriptor that is returned carries min as its CPU count (or
    memory size), and an error that is returned is the wrapped error of the
    block device, the wrapped error of the validation, or "invalid
    configuration". *)
Theorem inverted_bounds_raise_no_error :
  MinimumAllowedCPUCount p > MaximumAllowedCPUCount p \/
  MinimumAllowedMemorySize p > MaximumAllowedMemorySize p ->
  match setupVMConfiguration p platformConfig with
  | Ok config =>
      (MinimumAllowedCPUCount p > MaximumAllowedCPUCount p ->
         cpuCount config = MinimumAllowedCPUCount p)
      /\ (MinimumAllowedMemorySize p > MaximumAllowedMemorySize p ->
            memorySize config = MinimumAllowedMemorySize p)
  | Err e =>
      (exists e0,
          createBlockDeviceConfiguration p (GetDiskImagePath p) = Err e0
          /\ e = ErrorfW "failed to create block device configuration" e0)
      \/ (exists dev validated e0,
             createBlockDeviceConfiguration p (GetDiskImagePath p) = Ok dev
             /\ Validate p (assembled p platformConfig dev) = (validated, Some e0)
             /\ e = ErrorfW "failed to validate configuration" e0)
      \/ (exists dev,
             createBlockDeviceConfiguration p (GetDiskImagePath p) = Ok dev
             /\ Validate p (assembled p platformConfig dev) = (false, None)
             /\ e = Errorf "invalid configuration")
  end.
Proof.
  intros _.
  destruct (createBlockDeviceConfiguration p (GetDiskImagePath p)) as [dev | e0] eqn:Hdev.
  - rewrite (setupVMConfiguration_validated dev Hdev).
    destruct (Validate p (assembled p platformConfig dev)) as [[|] [err|]] eqn:Hv.
    + right; left. exists dev, true, err. repeat split; assumption.
    + split; intros Hinv; simpl.
      * rewrite computeCPUCount_clampAllowed. apply clampAllowed_inverted, Hinv.
      * rewrite computeMemorySize_clampAllowed. apply clampAllowed_inverted, Hinv.
    + right; left. exists dev, false, err. repeat split; assumption.
    + right; right. exists dev. repeat split; assumption.
  - unfold setupVMConfiguration. rewrite Hdev.
    left. exists e0. split; reflexivity.
Qed.

End Assembler.


Lemma validation_outcome_is_surfaced_witness :
  setupVMConfiguration
    (examplePlatform 5 1 8 (512 * MiB) (8 * GiB) None (false, None))
    examplePlatformConfig
  = Err (Errorf "invalid configuration").
Proof.
  pose (p := examplePlatform 5 1 8 (512 * MiB) (8 * GiB) None (false, None)).
  destruct (validation_outcome_is_surfaced p examplePlatformConfig
              (VirtioBlockDeviceConfiguration
                 (DiskImageStorageDeviceAttachment 0 "disk.img" false))
              eq_refl) as [Hinvalid _].
  apply Hinvalid. reflexivity.
Defined.

Lemma inverted_bounds_raise_no_error_witness :
  exists config,
    setupVMConfiguration
      (examplePlatform 5 4 2 (8 * GiB) (2 * GiB) None (true, None))
      examplePlatformConfig = Ok config
    /\ cpuCount config = 4 /\ memorySize config = 8 * GiB.
Proof.
  pose (p := examplePlatform 5 4 2 (8 * GiB) (2 * GiB) None (true, None)).
  assert (Hinv : MinimumAllowedCPUCount p > MaximumAllowedCPUCount p \/
                 MinimumAllowedMemorySize p > MaximumAllowedMemorySize p)
    by (left; reflexivity).
  pose proof (inverted_bounds_raise_no_error p examplePlatformConfig Hinv) as H.
  exists (assembled p examplePlatformConfig
            (VirtioBlockDeviceConfiguration
               (DiskImageStorageDeviceAttachment 0 "disk.img" false))).
  split; [reflexivity |].
  destruct H as [Hcpu Hmem].
  split; [apply Hcpu | apply Hmem]; reflexivity.
Defined.

(** C4, as worded, fails: with CPU bounds min = 4 > max = 2 and memory bounds
    min = 8 GiB > max = 2 GiB, a disk image that is created and a validation
    that accepts, setupVMConfiguration returns a descriptor and no error. *)
Lemma inverted_bounds_accepted : ~ inverted_bounds_are_an_error.
Proof.
  intros Hclaim.
  specialize (Hclaim (examplePlatform 5 4 2 (8 * GiB) (2 * GiB) None (true, None))
                examplePlatformConfig (or_introl eq_refl)).
  discriminate Hclaim.
Qed.

(** ** The cleanup loop *)

Section Cleanup.

Lemma to_int_small (z : Z) : - 2 ^ 63 <= z <= max_int -> to_int z = z.
Proof.
  intros Hz. unfold to_int, max_int in *.
  rewrite Z.mod_small by lia. lia.
Qed.

Lemma forced_stops_app (a b : list Event) :
  forced_stops (a ++ b) = (forced_stops a + forced_stops b)%nat.
Proof. unfold forced_stops. rewrite filter_app, length_app. reflexivity. Qed.

Lemma stop_requests_app (a b : list Event) :
  stop_requests (a ++ b) = (stop_requests a + stop_requests b)%nat.
Proof. unfold stop_requests. rewrite filter_app, length_app. reflexivity. Qed.

Lemma backoffs_app (a b : list Event) :
  backoffs (a ++ b) = (backoffs a + backoffs b)%nat.
Proof. unfold backoffs. rewrite filter_app, length_app. reflexivity. Qed.

Lemma backoffs_body (i : Z) (result : bool) (err : goerror) :
  backoffs (cleanup_body i result err) = 1%nat.
Proof. unfold cleanup_body. destruct (i >? 3); reflexivity. Qed.

Lemma forced_stops_body (i : Z) (result : bool) (err : goerror) :
  forced_stops (cleanup_body i result err) = if i >? 3 then 1%nat else 0%nat.
Proof. unfold cleanup_body. destruct (i >? 3); reflexivity. Qed.

Lemma stop_requests_body (i : Z) (result : bool) (err : goerror) :
  stop_requests (cleanup_body i result err) = 1%nat.
Proof. unfold cleanup_body. destruct (i >? 3); reflexivity. Qed.

Lemma cleanup_from_exit (pre rest : list StopPoll) :
  forallb is_permissible pre = true ->
  forall i,
    cleanup_from i (pre ++ NotPermissible :: rest)
    = Some (iterations i pre ++ [EvCanRequestStop false; EvLog "finished cleanup"]).
Proof.
  induction pre as [| q pre IH]; intros Hall i.
  - reflexivity.
  - destruct q as [| result err]; [discriminate Hall |].
    simpl in Hall. simpl. rewrite (IH Hall).
    rewrite <- app_assoc. reflexivity.
Qed.

Lemma cleanup_from_looping (polls : list StopPoll) :
  forallb is_permissible polls = true ->
  forall i, cleanup_from i polls = None.
Proof.
  induction polls as [| q polls IH]; intros Hall i.
  - reflexivity.
  - destruct q as [| result err]; [discriminate Hall |].
    simpl in Hall. simpl. rewrite (IH Hall). reflexivity.
Qed.

Lemma stop_requests_iterations (pre : list StopPoll) :
  forallb is_permissible pre = true ->
  forall i, stop_requests (iterations i pre) = List.length pre.
Proof.
  induction pre as [| q pre IH]; intros Hall i.
  - reflexivity.
  - destruct q as [| result err]; [discriminate Hall |].
    simpl in Hall.
    change (iterations i (Permissible result err :: pre))
      with ([EvCanRequestStop true]
              ++ cleanup_body i result err ++ iterations (to_int (i + 1)) pre).
    rewrite !stop_requests_app, stop_requests_body, (IH Hall). reflexivity.
Qed.

Lemma backoffs_iterations (pre : list StopPoll) :
  forallb is_permissible pre = true ->
  forall i, backoffs (iterations i pre) = List.length pre.
Proof.
  induction pre as [| q pre IH]; intros Hall i.
  - reflexivity.
  - destruct q as [| result err]; [discriminate Hall |].
    simpl in Hall.
    change (iterations i (Permissible result err :: pre))
      with ([EvCanRequestStop true]
              ++ cleanup_body i result err ++ iterations (to_int (i + 1)) pre).
    rewrite !backoffs_app, backoffs_body, (IH Hall). reflexivity.
Qed.

Lemma forced_stops_iterations (pre : list StopPoll) :
  forallb is_permissible pre = true ->
  forall i,
    1 <= i -> i + Z.of_nat (List.length pre) <= max_int ->
    forced_stops (iterations i pre)
    = Z.to_nat (i + Z.of_nat (List.length pre) - Z.max i 4).
Proof.
  induction pre as [| q pre IH]; intros Hall i Hi Hbound.
  - simpl. unfold forced_stops. simpl. lia.
  - destruct q as [| result err]; [discriminate Hall |].
    simpl in Hall.
    change (iterations i (Permissible result err :: pre))
      with ([EvCanRequestStop true]
              ++ cleanup_body i result err ++ iterations (to_int (i + 1)) pre).
    rewrite !forced_stops_app, forced_stops_body.
    cbn [List.length] in *. rewrite Nat2Z.inj_succ in *.
    rewrite to_int_small by (unfold max_int in *; lia).
    rewrite (IH Hall) by lia.
    change (forced_stops [EvCanRequestStop true]) with 0%nat.
    destruct (Z.gtb_spec i 3); lia.
Qed.

(** C1, as the code has it: in a shutdown sequence of n permitted polls
    (n below the largest int) followed by a refusal, the loop returns and has
    issued n - 3 forced stops, none when n <= 3: one at the end of every
    iteration whose counter exceeds 3. *)
Theorem forced_stop_every_iteration_past_three (pre rest : list StopPoll) :
  forallb is_permissible pre = true ->
  Z.of_nat (List.length pre) < max_int ->
  exists tr,
    cleanup (pre ++ NotPermissible :: rest) = Some tr
    /\ forced_stops tr = (List.length pre - 3)%nat.
Proof.
  intros Hall Hlen. unfold cleanup.
  rewrite (cleanup_from_exit pre rest Hall 1).
  eexists. split; [reflexivity |].
  rewrite forced_stops_app, (forced_stops_iterations pre Hall 1) by lia.
  change (forced_stops [EvCanRequestStop false; EvLog "finished cleanup"])
    with 0%nat.
  lia.
Qed.

(** C2, as the code has it: the loop returns at the first poll that is
    answered "not permissible", with nothing after that poll but the final
    log line; before it, every permitted poll has had exactly one stop
    request and one sleep of 3 seconds.  While every poll is answered
    "permissible" the loop does not return. *)
Theorem cleanup_exits_on_first_refusal (pre rest : list StopPoll) :
  forallb is_permissible pre = true ->
  (exists tr,
      cleanup (pre ++ NotPermissible :: rest)
      = Some (tr ++ [EvCanRequestStop false; EvLog "finished cleanup"])
      /\ stop_requests tr = List.length pre
      /\ backoffs tr = List.length pre)
  /\ cleanup pre = None.
Proof.
  intros Hall. split.
  - exists (iterations 1 pre). unfold cleanup.
    rewrite (cleanup_from_exit pre rest Hall 1).
    split; [reflexivity |].
    split; [apply stop_requests_iterations | apply backoffs_iterations];
      exact Hall.
  - apply cleanup_from_looping, Hall.
Qed.

End Cleanup.

Lemma forced_stop_every_iteration_past_three_witness :
  exists tr,
    cleanup (repeat (Permissible true None) 5 ++ [NotPermissible]) = Some tr
    /\ forced_stops tr = 2%nat.
Proof.
  apply (forced_stop_every_iteration_past_three
           (repeat (Permissible true None) 5) []).
  - reflexivity.
  - reflexivity.
Defined.

Lemma cleanup_exits_on_first_refusal_witness :
  (exists tr,
      cleanup ([Permissible false None; Permissible true None]
                 ++ [NotPermissible; Permissible true None])
      = Some (tr ++ [EvCanRequestStop false; EvLog "finished cleanup"])
      /\ stop_requests tr = 2%nat /\ backoffs tr = 2%nat)
  /\ cleanup [Permissible false None; Permissible true None] = None.
Proof.
  apply (cleanup_exits_on_first_refusal
           [Permissible false None; Permissible true None]
           [NotPermissible; Permissible true None]).
  reflexivity.
Defined.

(** C1, as worded, fails: five permitted polls and then a refusal make the
    loop issue two forced stops, at the counters 4 and 5. *)
Lemma forced_stop_issued_twice : ~ forced_stop_at_most_once.
Proof.
  intros Hclaim.
  specialize (Hclaim (repeat (Permissible true None) 5 ++ [NotPermissible])
                _ eq_refl).
  vm_compute in Hclaim. lia.
Qed.

(** C2, as worded, fails: after a refused poll the loop has returned; the
    permissible answer the platform would have given next is never asked for
    and no stop request is issued. *)
Lemma refused_attempt_ends_cleanup : ~ refused_attempt_is_retried.
Proof.
  intros Hclaim.
  specialize (Hclaim true None [NotPermissible] _ eq_refl).
  simpl in Hclaim.
  destruct Hclaim as [H | [H | []]]; discriminate H.
Qed.

(** ** The merge of the completion callback and the notification feed *)

Section Merge.

Ltac step_cases m s Hstep :=
  destruct m; unfold step in Hstep;
  destruct s as [ch cb feed mg obs res]; cbn [errCh startCompletion
    notifications merger observed mainResult] in *;
  repeat match type of Hstep with
         | context [match ?x with _ => _ end] => destruct x eqn:?
         end;
  try discriminate Hstep;
  injection Hstep as <-.

Lemma step_one_terminal (m : Move) (s s' : Session) :
  step m s = Some s' -> one_terminal s -> one_terminal s'.
Proof.
  intros Hstep Hinv. unfold one_terminal in *.
  step_cases m s Hstep; cbn in *; subst; try assumption; try reflexivity.
Qed.

Lemma step_success_delivered (m : Move) (s s' : Session) :
  step m s = Some s' -> success_delivered s -> success_delivered s'.
Proof.
  intros Hstep [Hret Hres]. unfold success_delivered in *.
  step_cases m s Hstep; cbn in *; subst;
    try discriminate Hret;
    (split; [reflexivity |]);
    destruct Hres as [[Hr Hc] | Hr];
    try discriminate; try (injection Hc as <-);
    auto.
Qed.

Lemma advance_preserves (P : Session -> Prop) :
  (forall m s s', step m s = Some s' -> P s -> P s') ->
  forall sched s, P s -> P (exec sched s).
Proof.
  intros Hstep sched. unfold exec.
  induction sched as [| m sched IH]; intros s Hs.
  - exact Hs.
  - simpl. apply IH. unfold advance.
    destruct (step m s) as [s' |] eqn:Hm; [apply (Hstep m s s' Hm Hs) | exact Hs].
Qed.

Lemma exec_app (a b : list Move) (s : Session) :
  exec (a ++ b) s = exec b (exec a s).
Proof. unfold exec. apply fold_left_app. Qed.

(** X15: in every interleaving the merge loop takes at most one terminal
    signal; and once the loop has returned with its nil in errCh and line 101
    has not received yet, no later step - in particular no completion error
    sent by the Start callback afterwards - changes what [run] receives: it
    is nil. *)
Theorem merge_delivers_first_success
    (completion : option goerror) (feed : list VirtualMachineState)
    (sched later : list Move) :
  let s := exec sched (initial completion feed) in
  (List.length (observed s) <= 1)%nat
  /\ (merger s = MReturned -> errCh s = Some None -> mainResult s = None ->
      (mainResult (exec later s) = None \/ mainResult (exec later s) = Some None)
      /\ mainResult (exec (later ++ [MvMainReceive]) s) = Some None).
Proof.
  intros s. split.
  - assert (Hinv : one_terminal s).
    { apply (advance_preserves one_terminal step_one_terminal). reflexivity. }
    unfold one_terminal in Hinv.
    destruct (merger s); rewrite Hinv; auto.
  - intros Hret Hch Hres.
    assert (Hinv : success_delivered (exec later s)).
    { apply (advance_preserves success_delivered step_success_delivered).
      split; [exact Hret | left; split; assumption]. }
    destruct Hinv as [_ Hinv]. split.
    + destruct Hinv as [[Hr _] | Hr]; [left | right]; exact Hr.
    + rewrite exec_app. cbn. unfold advance, step.
      destruct Hinv as [[Hr Hc] | Hr].
      * rewrite Hr, Hc. reflexivity.
      * rewrite Hr. exact Hr.
Qed.

End Merge.

Lemma merge_delivers_first_success_witness :
  mainResult
    (exec ([MvMainReceive; MvCallback] ++ [MvMainReceive])
       (exec [MvNotification; MvNotification; MvMergerSend]
          (initial (Some (Some (PlatformError 1)))
             [VirtualMachineStateRunning; VirtualMachineStateStopped])))
  = Some None.
Proof.
  destruct (merge_delivers_first_success
              (Some (Some (PlatformError 1)))
              [VirtualMachineStateRunning; VirtualMachineStateStopped]
              [MvNotification; MvNotification; MvMergerSend]
              [MvMainReceive; MvCallback]) as [_ Hlate].
  apply Hlate; reflexivity.
Defined.

(** An observed success does not always reach [run]: the merge loop takes
    the Stopped notification, the Start callback then sends its error into
    the still empty errCh before the loop reaches its own send, and line 101
    receives that error. *)
Lemma late_completion_error_is_reported : ~ observed_success_is_reported.
Proof.
  intros Hclaim.
  specialize (Hclaim (Some (Some (PlatformError 1)))
                [VirtualMachineStateStopped]
                [MvNotification; MvCallback; MvMainReceive]
                VirtualMachineStateStopped (Some (PlatformError 1))
                eq_refl eq_refl).
  discriminate Hclaim.
Qed.

(** ** run and the context *)




(** * Further properties of main.go *)

(** ** Planner: range and monotonicity *)

Lemma clampAllowed_within (v maxAllowed minAllowed : Z) :
  minAllowed <= maxAllowed ->
  minAllowed <= clampAllowed v maxAllowed minAllowed <= maxAllowed.
Proof. intros Hord. rewrite clampAllowed_spec. unfold clamp_spec. lia. Qed.

Lemma clampAllowed_monotone (v v' maxAllowed minAllowed : Z) :
  v <= v' ->
  clampAllowed v maxAllowed minAllowed <= clampAllowed v' maxAllowed minAllowed.
Proof. intros Hle. rewrite !clampAllowed_spec. unfold clamp_spec. lia. Qed.

(** X1: whenever the platform's bounds are ordered, the planned CPU count and
    the planned memory size lie within them, whatever runtime.NumCPU()
    answers. *)
Theorem planned_values_within_bounds (p : Platform) :
  (MinimumAllowedCPUCount p <= MaximumAllowedCPUCount p ->
   MinimumAllowedCPUCount p <= computeCPUCount p <= MaximumAllowedCPUCount p)
  /\ (MinimumAllowedMemorySize p <= MaximumAllowedMemorySize p ->
      MinimumAllowedMemorySize p <= computeMemorySize p
      <= MaximumAllowedMemorySize p).
Proof.
  split; intros Hord.
  - rewrite computeCPUCount_clampAllowed. apply clampAllowed_within, Hord.
  - rewrite computeMemorySize_clampAllowed. apply clampAllowed_within, Hord.
Qed.

Lemma planned_values_within_bounds_witness :
  1 <= computeCPUCount (examplePlatform 64 1 8 (512 * MiB) (2 * GiB) None (true, None))
    <= 8
  /\ 512 * MiB
     <= computeMemorySize
          (examplePlatform 64 1 8 (512 * MiB) (2 * GiB) None (true, None))
     <= 2 * GiB.
Proof.
  pose (p := examplePlatform 64 1 8 (512 * MiB) (2 * GiB) None (true, None)).
  destruct (planned_values_within_bounds p) as [Hcpu Hmem].
  split; [apply Hcpu | apply Hmem]; vm_compute; discriminate.
Defined.

(** X2: under the same bounds a host with more logical cores is never
    planned fewer CPUs. *)
Theorem computeCPUCount_monotone (p p' : Platform) :
  MinimumAllowedCPUCount p = MinimumAllowedCPUCount p' ->
  MaximumAllowedCPUCount p = MaximumAllowedCPUCount p' ->
  1 <= NumCPU p -> NumCPU p <= NumCPU p' -> NumCPU p' <= max_int ->
  computeCPUCount p <= computeCPUCount p'.
Proof.
  intros Hmin Hmax H1 Hle Hint.
  rewrite !computeCPUCount_clampAllowed.
  rewrite !floor_is_default_request by lia.
  rewrite Hmin, Hmax. apply clampAllowed_monotone.
  unfold default_cpu_request. lia.
Qed.

Lemma computeCPUCount_monotone_witness :
  computeCPUCount (examplePlatform 2 1 8 (512 * MiB) (8 * GiB) None (true, None))
  <= computeCPUCount (examplePlatform 6 1 8 (512 * MiB) (8 * GiB) None (true, None)).
Proof.
  apply computeCPUCount_monotone;
    try reflexivity; vm_compute; discriminate.
Defined.

(** ** Assembler: where errors come from *)

(** X3: createMacPlatformConfiguration stops at the first identity artifact
    that cannot be made and returns that artifact's error under the message
    of its stage; it returns a configuration exactly when all three were
    made, and the configuration holds those three. *)
Theorem createMacPlatformConfiguration_stages (p : Platform) :
  match createMacPlatformConfiguration p with
  | Ok platformConfig =>
      NewMacAuxiliaryStorage p (GetAuxiliaryStoragePath p)
      = Ok (auxiliaryStorage platformConfig)
      /\ NewMacHardwareModelWithDataPath p (GetHardwareModelPath p)
         = Ok (hardwareModel platformConfig)
      /\ NewMacMachineIdentifierWithDataPath p (GetMachineIdentifierPath p)
         = Ok (machineIdentifier platformConfig)
  | Err e =>
      (exists e0,
          NewMacAuxiliaryStorage p (GetAuxiliaryStoragePath p) = Err e0
          /\ e = ErrorfW "failed to create a new mac auxiliary storage" e0)
      \/ (exists aux e0,
             NewMacAuxiliaryStorage p (GetAuxiliaryStoragePath p) = Ok aux
             /\ NewMacHardwareModelWithDataPath p (GetHardwareModelPath p) = Err e0
             /\ e = ErrorfW "failed to create a new hardware model" e0)
      \/ (exists aux hw e0,
             NewMacAuxiliaryStorage p (GetAuxiliaryStoragePath p) = Ok aux
             /\ NewMacHardwareModelWithDataPath p (GetHardwareModelPath p) = Ok hw
             /\ NewMacMachineIdentifierWithDataPath p (GetMachineIdentifierPath p)
                = Err e0
             /\ e = ErrorfW "failed to create a new machine identifier" e0)
  end.
Proof.
  unfold createMacPlatformConfiguration.
  destruct (NewMacAuxiliaryStorage p _) as [aux | e0] eqn:Haux.
  - destruct (NewMacHardwareModelWithDataPath p _) as [hw | e1] eqn:Hhw.
    + destruct (NewMacMachineIdentifierWithDataPath p _) as [mid | e2] eqn:Hmid.
      * repeat split; reflexivity.
      * right; right. exists aux, hw, e2. repeat split; reflexivity.
    + right; left. exists aux, e1. repeat split; reflexivity.
  - left. exists e0. split; reflexivity.
Qed.

(** X4: an error of createBlockDeviceConfiguration is either the error of
    the disk-image creation, not recognised by os.IsExist and wrapped as
    "failed to create disk image", or the error of the attachment, returned
    as it is; a device that is returned wraps the attachment the platform
    made for that path, read-write. *)
Theorem createBlockDeviceConfiguration_outcomes (p : Platform) (diskPath : string) :
  match createBlockDeviceConfiguration p diskPath with
  | Ok dev =>
      exists a,
        NewDiskImageStorageDeviceAttachment p diskPath false = Ok a
        /\ dev = VirtioBlockDeviceConfiguration a
        /\ (CreateDiskImage p diskPath (64 * GiB) = None
            \/ exists e0, CreateDiskImage p diskPath (64 * GiB) = Some e0
                          /\ IsExist p e0 = true)
  | Err e =>
      (exists e0, CreateDiskImage p diskPath (64 * GiB) = Some e0
                  /\ IsExist p e0 = false
                  /\ e = ErrorfW "failed to create disk image" e0)
      \/ NewDiskImageStorageDeviceAttachment p diskPath false = Err e
  end.
Proof.
  unfold createBlockDeviceConfiguration, attach.
  change (64 * 1024 * 1024 * 1024) with (64 * GiB).
  destruct (CreateDiskImage p diskPath (64 * GiB)) as [e0 |] eqn:Hc.
  - destruct (IsExist p e0) eqn:Hx; cbn [negb].
    + destruct (NewDiskImageStorageDeviceAttachment p diskPath false) as [a | e1].
      * exists a. repeat split. right. exists e0. split; [reflexivity | exact Hx].
      * right. reflexivity.
    + left. exists e0. repeat split. exact Hx.
  - destruct (NewDiskImageStorageDeviceAttachment p diskPath false) as [a | e1].
    + exists a. repeat split. left. reflexivity.
    + right. reflexivity.
Qed.

(** X5: a descriptor returned by setupVMConfiguration is the assembled one,
    and config.Validate() has answered (true, nil) on exactly that
    descriptor; it carries the planner's values, the given platform
    configuration and one device of each class. *)
Theorem returned_descriptor_was_validated
    (p : Platform) (platformConfig : MacPlatformConfiguration)
    (config : VirtualMachineConfiguration) :
  setupVMConfiguration p platformConfig = Ok config ->
  Validate p config = (true, None)
  /\ cpuCount config = computeCPUCount p
  /\ memorySize config = computeMemorySize p
  /\ platformConfiguration config = Some platformConfig
  /\ (exists dev,
         createBlockDeviceConfiguration p (GetDiskImagePath p) = Ok dev
         /\ storageDevices config = [dev])
  /\ List.length (graphicsDevices config) = 1%nat
  /\ List.length (networkDevices config) = 1%nat
  /\ List.length (pointingDevices config) = 1%nat
  /\ List.length (keyboards config) = 1%nat
  /\ List.length (audioDevices config) = 1%nat.
Proof.
  unfold setupVMConfiguration.
  destruct (createBlockDeviceConfiguration p (GetDiskImagePath p))
    as [dev | e0] eqn:Hdev; [| discriminate].
  destruct (Validate p (assembled p platformConfig dev)) as [validated [e1 |]] eqn:Hv;
    [discriminate |].
  destruct validated; cbn [negb]; [| discriminate].
  intros Hok. injection Hok as <-.
  split; [exact Hv |].
  repeat split. exists dev. split; reflexivity.
Qed.

Lemma returned_descriptor_was_validated_witness :
  cpuCount
    (assembled (examplePlatform 5 1 8 (512 * MiB) (8 * GiB) None (true, None))
       examplePlatformConfig
       (VirtioBlockDeviceConfiguration
          (DiskImageStorageDeviceAttachment 0 "disk.img" false)))
  = 4.
Proof.
  pose (p := examplePlatform 5 1 8 (512 * MiB) (8 * GiB) None (true, None)).
  destruct (returned_descriptor_was_validated p examplePlatformConfig
              (assembled p examplePlatformConfig
                 (VirtioBlockDeviceConfiguration
                    (DiskImageStorageDeviceAttachment 0 "disk.img" false)))
              eq_refl) as [_ [Hcpu _]].
  exact Hcpu.
Defined.

(** ** Cleanup: escalation comes after four requests *)

Lemma to_int_range (z : Z) : - 2 ^ 63 <= to_int z <= max_int.
Proof.
  unfold to_int, max_int.
  pose proof (Z.mod_pos_bound (z + 2 ^ 63) (2 ^ 64) eq_refl). lia.
Qed.

Lemma to_int_le (z : Z) : - 2 ^ 63 <= z -> to_int z <= z.
Proof.
  intros Hz. unfold to_int.
  pose proof (Z.mod_le (z + 2 ^ 63) (2 ^ 64) ltac:(lia) eq_refl). lia.
Qed.

Lemma stop_requests_cons (e : Event) (tr : list Event) :
  stop_requests (e :: tr)
  = ((if is_stop_request e then 1 else 0) + stop_requests tr)%nat.
Proof. unfold stop_requests. simpl. destruct (is_stop_request e); reflexivity. Qed.

(** With [k] requests sent before counter [i] and [i <= k + 1], every forced
    stop of the rest of the loop has at least four requests before it. *)
Lemma cleanup_from_threshold (polls : list StopPoll) :
  forall (i : Z) (k : nat) (tr : list Event),
    - 2 ^ 63 <= i -> i <= Z.of_nat k + 1 ->
    cleanup_from i polls = Some tr ->
    forall a b, tr = a ++ EvStop :: b -> (4 <= k + stop_requests a)%nat.
Proof.
  induction polls as [| q polls IH]; intros i k tr Hlo Hik Hrun a b Hsplit.
  - discriminate Hrun.
  - destruct q as [| result err]; simpl in Hrun.
    + injection Hrun as <-.
      destruct a as [| x1 [| x2 [| x3 a]]]; simpl in Hsplit;
        discriminate Hsplit.
    + destruct (cleanup_from (to_int (i + 1)) polls) as [tr' |] eqn:Hrest;
        [| discriminate Hrun].
      injection Hrun as <-.
      assert (Hlo' : - 2 ^ 63 <= to_int (i + 1)) by apply to_int_range.
      assert (Hik' : to_int (i + 1) <= Z.of_nat (S k) + 1).
      { pose proof (to_int_le (i + 1) ltac:(lia)). lia. }
      specialize (IH _ (S k) tr' Hlo' Hik' Hrest).
      try unfold cleanup_body in Hsplit.
      destruct (Z.gtb_spec i 3) as [Hgt | Hle]; simpl in Hsplit.
      * destruct a as [| x1 [| x2 [| x3 [| x4 [| x5 [| x6 a]]]]]];
          simpl in Hsplit; try discriminate Hsplit.
        { injection Hsplit as <- <- <- <- <- _.
          rewrite !stop_requests_cons. simpl. lia. }
        { injection Hsplit as <- <- <- <- <- <- Htail.
          specialize (IH a b Htail).
          rewrite !stop_requests_cons. simpl. lia. }
      * destruct a as [| x1 [| x2 [| x3 [| x4 a]]]];
          simpl in Hsplit; try discriminate Hsplit.
        injection Hsplit as <- <- <- <- Htail.
        specialize (IH a b Htail).
        rewrite !stop_requests_cons. simpl. lia.
Qed.

(** X6: whatever the platform answers and however long the loop runs, a
    forced stop is never issued before four graceful stop requests have been
    sent: every [vm.Stop] in the trace of the cleanup loop has at least four
    [vm.RequestStop] before it. *)
Theorem forced_stop_follows_four_requests
    (polls : list StopPoll) (tr a b : list Event) :
  cleanup polls = Some tr ->
  tr = a ++ EvStop :: b ->
  (4 <= stop_requests a)%nat.
Proof.
  intros Hrun Hsplit.
  apply (cleanup_from_threshold polls 1 0%nat tr) with (b := b);
    [lia | lia | exact Hrun | exact Hsplit].
Qed.

Lemma forced_stop_follows_four_requests_witness :
  (4 <= stop_requests
          (EvCanRequestStop true :: cleanup_body 1 true None
             ++ EvCanRequestStop true :: cleanup_body 2 true None
             ++ EvCanRequestStop true :: cleanup_body 3 true None
             ++ [EvCanRequestStop true; EvRequestStop false None;
                 EvLogStopRequest 4 false None; EvSleep 3; EvLog "call stop"]))%nat.
Proof.
  match goal with
  | |- (4 <= stop_requests ?a)%nat =>
      apply (forced_stop_follows_four_requests
               [Permissible true None; Permissible true None;
                Permissible true None; Permissible false None; NotPermissible]
               (a ++ EvStop :: [EvCanRequestStop false; EvLog "finished cleanup"])
               a [EvCanRequestStop false; EvLog "finished cleanup"])
  end; reflexivity.
Defined.

(** The loop's course depends on the answers of [vm.CanRequestStop()] only. *)
Lemma cleanup_from_same_course (polls polls' : list StopPoll) :
  map is_permissible polls = map is_permissible polls' ->
  forall i,
    match cleanup_from i polls, cleanup_from i polls' with
    | Some tr, Some tr' =>
        forced_stops tr = forced_stops tr'
        /\ stop_requests tr = stop_requests tr'
    | None, None => True
    | _, _ => False
    end.
Proof.
  revert polls'.
  induction polls as [| q polls IH]; intros [| q' polls'] Hmap i;
    try discriminate Hmap.
  - exact I.
  - simpl in Hmap. injection Hmap as Hq Hmap.
    destruct q as [| result err], q' as [| result' err'];
      try discriminate Hq; cbn [cleanup_from].
    + split; reflexivity.
    + specialize (IH polls' Hmap (to_int (i + 1))).
      destruct (cleanup_from (to_int (i + 1)) polls),
               (cleanup_from (to_int (i + 1)) polls');
        try contradiction; [| exact I].
      destruct IH as [Hf Hr].
      change (EvCanRequestStop true :: ?x ++ ?y)
        with ([EvCanRequestStop true] ++ x ++ y).
      rewrite !forced_stops_app, !stop_requests_app,
              !forced_stops_body, !stop_requests_body, Hf, Hr.
      split; reflexivity.
Qed.

(** X7: what [vm.RequestStop()] returns - its boolean and its error - is
    only logged: two runs that differ in nothing but those results return
    the same error (or both do not return), and their cleanup loops issue
    the same number of stop requests and of forced stops. *)
Theorem stop_request_results_are_ignored (ctx : Context) (w w' : World) :
  platform w = platform w' ->
  startResult w = startResult w' ->
  stateFeed w = stateFeed w' ->
  schedule w = schedule w' ->
  map is_permissible (stopPolls w) = map is_permissible (stopPolls w') ->
  verdict (runVM ctx w) = verdict (runVM ctx w')
  /\ match cleanup (stopPolls w), cleanup (stopPolls w') with
     | Some tr, Some tr' =>
         forced_stops tr = forced_stops tr'
         /\ stop_requests tr = stop_requests tr'
     | None, None => True
     | _, _ => False
     end.
Proof.
  intros Hp Hs Hf Hsch Hmap.
  pose proof (cleanup_from_same_course _ _ Hmap 1) as Hcourse.
  fold (cleanup (stopPolls w)) in Hcourse.
  fold (cleanup (stopPolls w')) in Hcourse.
  split; [| exact Hcourse].
  unfold runVM. rewrite <- Hp, <- Hs, <- Hf, <- Hsch.
  destruct (createMacPlatformConfiguration (platform w)) as [pc | e];
    [| reflexivity].
  destruct (setupVMConfiguration (platform w) pc) as [config | e];
    [| reflexivity].
  destruct (cleanup (stopPolls w)), (cleanup (stopPolls w'));
    try contradiction; [| reflexivity].
  cbv zeta.
  destruct (mainResult _); reflexivity.
Qed.

Lemma stop_request_results_are_ignored_witness :
  verdict
    (runVM Background
       (exampleWorld [Permissible true None; NotPermissible] None
          [VirtualMachineStateStopped] (deliver 1)))
  = verdict
      (runVM Background
         (exampleWorld [Permissible false (Some (PlatformError 9)); NotPermissible]
            None [VirtualMachineStateStopped] (deliver 1))).
Proof.
  apply (stop_request_results_are_ignored Background
           (exampleWorld [Permissible true None; NotPermissible] None
              [VirtualMachineStateStopped] (deliver 1))
           (exampleWorld [Permissible false (Some (PlatformError 9)); NotPermissible]
              None [VirtualMachineStateStopped] (deliver 1)));
    reflexivity.
Defined.

(** ** Merge: what run can receive, and when *)

Ltac session_cases m s Hstep :=
  destruct m; unfold step in Hstep;
  destruct s as [ch cb feed mg obs res]; cbn [errCh startCompletion
    notifications merger observed mainResult] in *;
  repeat match type of Hstep with
         | context [match ?x with _ => _ end] => destruct x eqn:?
         end;
  try discriminate Hstep;
  injection Hstep as <-.

Lemma start_error_reportable (completion : option goerror) (v : goerror) :
  start_error completion v -> reportable completion v.
Proof. intros [e [Hc ->]]. right. exists e. split; [exact Hc | left; reflexivity]. Qed.

Lemma wrapped_start_error_reportable (completion : option goerror) (v : goerror) :
  start_error completion v -> reportable completion (Some (wrapStartError v)).
Proof.
  intros [e [Hc ->]]. right. exists e. split; [exact Hc | right; reflexivity].
Qed.

Lemma step_values_accounted (completion : option goerror)
    (m : Move) (s s' : Session) :
  step m s = Some s' -> values_accounted completion s ->
  values_accounted completion s'.
Proof.
  intros Hstep Hinv. unfold values_accounted in *.
  session_cases m s Hstep; cbn in *; subst;
    destruct Hinv as (Hcb & Hch & Hsel & Hw & Hres).
  - (* the callback sends its error *)
    assert (Hse : start_error completion (Some e)).
    { exists e. destruct Hcb as [Hcb | Hcb]; [discriminate Hcb |].
      split; [symmetry; exact Hcb | reflexivity]. }
    repeat split; auto.
    + intros v Hv. injection Hv as <-. apply start_error_reportable, Hse.
    + intros _ v Hv. injection Hv as <-. exact Hse.
  - (* the callback was called with nil *)
    repeat split; auto.
  - (* a stop state is taken *)
    repeat split; auto; intros; discriminate.
  - (* another state is taken *)
    repeat split; auto.
  - (* the loop takes a value from errCh *)
    repeat split; auto; try (intros; discriminate).
    intros v Hv. injection Hv as <-. apply Hsel; reflexivity.
  - (* the loop sends nil *)
    repeat split; auto; try (intros; discriminate).
    intros v Hv. injection Hv as <-. left. reflexivity.
  - (* the loop sends the wrapped error *)
    repeat split; auto; try (intros; discriminate).
    intros v Hv. injection Hv as <-.
    apply wrapped_start_error_reportable, Hw. reflexivity.
  - (* line 101 receives *)
    repeat split; auto; intros; discriminate.
Qed.

Lemma initial_values_accounted (completion : option goerror)
    (feed : list VirtualMachineState) :
  values_accounted completion (initial completion feed).
Proof.
  unfold values_accounted, initial; cbn.
  repeat split; auto; intros; discriminate.
Qed.

Lemma received_is_reportable (completion : option goerror)
    (feed : list VirtualMachineState) (sched : list Move) (v : goerror) :
  mainResult (exec sched (initial completion feed)) = Some v ->
  reportable completion v.
Proof.
  intros Hres.
  pose proof (advance_preserves (values_accounted completion)
                (step_values_accounted completion) sched _
                (initial_values_accounted completion feed)) as Hinv.
  destruct Hinv as (_ & _ & _ & _ & Hmain). apply Hmain, Hres.
Qed.

(** X8: in every interleaving, the value [run] receives from errCh is nil,
    the error the platform passed to the Start callback, or that error
    wrapped once as "failed to start vm"; when the callback is never called
    or is called with nil, it is nil. *)
Theorem run_receives_nil_or_start_error (completion : option goerror)
    (feed : list VirtualMachineState) (sched : list Move) (v : goerror) :
  mainResult (exec sched (initial completion feed)) = Some v ->
  (v = None
   \/ exists e, completion = Some (Some e)
                /\ (v = Some e \/ v = Some (ErrorfW "failed to start vm" e)))
  /\ ((completion = None \/ completion = Some None) -> v = None).
Proof.
  intros Hres.
  pose proof (received_is_reportable completion feed sched v Hres) as Hrep.
  split; [exact Hrep |].
  intros Hok. destruct Hrep as [Hnil | [e [Hc _]]]; [exact Hnil |].
  destruct Hok as [Hok | Hok]; rewrite Hok in Hc; discriminate Hc.
Qed.

Lemma run_receives_nil_or_start_error_witness :
  Some (ErrorfW "failed to start vm" (PlatformError 1)) = None
  \/ exists e,
       Some (Some (PlatformError 1)) = Some (Some e)
       /\ (Some (ErrorfW "failed to start vm" (PlatformError 1)) = Some e
           \/ Some (ErrorfW "failed to start vm" (PlatformError 1))
              = Some (ErrorfW "failed to start vm" e)).
Proof.
  apply (run_receives_nil_or_start_error (Some (Some (PlatformError 1)))
           [VirtualMachineStateRunning]
           [MvCallback; MvCompletion; MvMergerSend; MvMainReceive]).
  reflexivity.
Defined.

Lemma step_nothing_to_report (m : Move) (s s' : Session) :
  step m s = Some s' -> nothing_to_report s -> nothing_to_report s'.
Proof.
  intros Hstep Hinv. unfold nothing_to_report in *.
  session_cases m s Hstep; cbn in *; subst;
    destruct Hinv as (Hch & Hmg & Hres & Hcb & Hfeed);
    try discriminate;
    try (destruct Hcb as [Hcb | Hcb]; discriminate Hcb).
  - repeat split; auto.
  - apply andb_prop in Hfeed. destruct Hfeed as [Hst _].
    unfold is_running_on in Hst.
    match goal with H : is_stop_state _ = true |- _ => rewrite H in Hst end.
    discriminate Hst.
  - apply andb_prop in Hfeed. destruct Hfeed as [_ Hfeed].
    repeat split; auto.
Qed.

(** X9: as long as the start has not failed, [run] does not return before a
    Stopped or Stopping state is delivered: with a feed of other states only
    (Running, Paused, Error, ...), no interleaving lets line 101 receive. *)
Theorem run_waits_for_a_stop_state (completion : option goerror)
    (feed : list VirtualMachineState) (sched : list Move) :
  completion = None \/ completion = Some None ->
  forallb is_running_on feed = true ->
  mainResult (exec sched (initial completion feed)) = None.
Proof.
  intros Hc Hfeed.
  assert (Hinv : nothing_to_report (exec sched (initial completion feed))).
  { apply (advance_preserves nothing_to_report step_nothing_to_report).
    unfold nothing_to_report, initial; cbn. repeat split; assumption. }
  destruct Hinv as (_ & _ & Hres & _). exact Hres.
Qed.

Lemma run_waits_for_a_stop_state_witness :
  mainResult
    (exec [MvCallback; MvNotification; MvNotification; MvMergerSend; MvMainReceive]
       (initial (Some None) [VirtualMachineStateRunning; VirtualMachineStateError]))
  = None.
Proof.
  apply run_waits_for_a_stop_state; [right; reflexivity | reflexivity].
Defined.

Lemma exec_deliver (pre : list VirtualMachineState) :
  forallb is_running_on pre = true ->
  forall st rest cb obs,
    is_stop_state st = true ->
    exec (deliver (S (List.length pre)))
      {| errCh := None; startCompletion := cb;
         notifications := pre ++ st :: rest; merger := MSelect;
         observed := obs; mainResult := None |}
    = {| errCh := None; startCompletion := cb;
         notifications := rest; merger := MReturned;
         observed := TermNotification st :: obs; mainResult := Some None |}.
Proof.
  induction pre as [| x pre IH]; intros Hpre st rest cb obs Hst.
  - unfold deliver, exec. cbn. unfold advance, step. cbn. rewrite Hst. reflexivity.
  - cbn in Hpre. apply andb_prop in Hpre. destruct Hpre as [Hx Hpre].
    unfold is_running_on in Hx. apply negb_true_iff in Hx.
    change (deliver (S (List.length (x :: pre))))
      with (MvNotification :: deliver (S (List.length pre))).
    change ((x :: pre) ++ st :: rest) with (x :: pre ++ st :: rest).
    match goal with
    | |- exec (MvNotification :: ?l) ?s = _ =>
        change (exec (MvNotification :: l) s)
          with (exec l (advance s MvNotification))
    end.
    unfold advance, step;
      cbn [errCh startCompletion notifications merger observed mainResult].
    rewrite Hx. apply (IH Hpre st rest cb obs Hst).
Qed.

(** X10: a Stopped or Stopping state in the feed is enough for [run] to
    return nil, whatever the Start callback does: when the merge loop is
    given the processor for the notifications up to the first such state and
    for its send, and line 101 then receives, the value received is nil and
    the one terminal signal taken is that state. *)
Theorem stop_state_lets_run_return_nil (completion : option goerror)
    (pre rest : list VirtualMachineState) (st : VirtualMachineState) :
  forallb is_running_on pre = true ->
  is_stop_state st = true ->
  let s := exec (deliver (S (List.length pre)))
             (initial completion (pre ++ st :: rest)) in
  mainResult s = Some None /\ observed s = [TermNotification st].
Proof.
  intros Hpre Hst s. subst s. unfold initial.
  rewrite (exec_deliver pre Hpre st rest completion [] Hst).
  split; reflexivity.
Qed.

Lemma stop_state_lets_run_return_nil_witness :
  mainResult
    (exec (deliver 3)
       (initial (Some (Some (PlatformError 1)))
          ([VirtualMachineStateStarting; VirtualMachineStateRunning]
             ++ VirtualMachineStateStopping :: [VirtualMachineStateStopped])))
  = Some None.
Proof.
  apply (stop_state_lets_run_return_nil (Some (Some (PlatformError 1)))
           [VirtualMachineStateStarting; VirtualMachineStateRunning]
           [VirtualMachineStateStopped] VirtualMachineStateStopping);
    reflexivity.
Defined.

(** ** runVM and main *)

Lemma locks_app (a b : list Event) : locks (a ++ b) = (locks a + locks b)%nat.
Proof. unfold locks. rewrite filter_app, length_app. reflexivity. Qed.

Lemma unlocks_app (a b : list Event) :
  unlocks (a ++ b) = (unlocks a + unlocks b)%nat.
Proof. unfold unlocks. rewrite filter_app, length_app. reflexivity. Qed.

Lemma cleanup_from_keeps_thread (polls : list StopPoll) :
  forall i tr,
    cleanup_from i polls = Some tr -> locks tr = 0%nat /\ unlocks tr = 0%nat.
Proof.
  induction polls as [| q polls IH]; intros i tr Hrun.
  - discriminate Hrun.
  - destruct q as [| result err]; cbn [cleanup_from] in Hrun.
    + injection Hrun as <-. split; reflexivity.
    + destruct (cleanup_from (to_int (i + 1)) polls) as [tr' |] eqn:Hrest;
        [| discriminate Hrun].
      injection Hrun as <-. destruct (IH _ _ Hrest) as [Hl Hu].
      unfold locks, unlocks in *.
      destruct (i >? 3); simpl; split; assumption.
Qed.

(** X11: when runVM returns, by whichever path, every
    runtime.LockOSThread() has been matched by a runtime.UnlockOSThread();
    while it is blocked on errCh the lock of line 37 is still held. *)
Theorem runVM_balances_thread_locks (ctx : Context) (w : World) :
  match runVM ctx w with
  | Returned _ tr => locks tr = unlocks tr
  | BlockedOnErrCh tr => locks tr = S (unlocks tr)
  | LoopingInCleanup => True
  end.
Proof.
  unfold runVM.
  destruct (createMacPlatformConfiguration (platform w)) as [pc | e];
    [| reflexivity].
  destruct (setupVMConfiguration (platform w) pc) as [config | e];
    [| reflexivity].
  destruct (cleanup (stopPolls w)) as [tr |] eqn:Hloop; [| exact I].
  destruct (cleanup_from_keeps_thread _ _ _ Hloop) as [Hl Hu].
  cbv zeta. destruct (mainResult _) as [v |].
  - rewrite !locks_app, !unlocks_app, Hl, Hu. reflexivity.
  - rewrite !locks_app, !unlocks_app, Hl, Hu. reflexivity.
Qed.

Lemma runVM_returns (ctx : Context) (w : World) (err : goerror) (tr : list Event) :
  runVM ctx w = Returned err tr ->
  (exists e, err = Some e
             /\ (createMacPlatformConfiguration (platform w) = Err e
                 \/ exists platformConfig,
                      createMacPlatformConfiguration (platform w) = Ok platformConfig
                      /\ setupVMConfiguration (platform w) platformConfig = Err e))
  \/ mainResult (exec (schedule w) (initial (startResult w) (stateFeed w)))
     = Some err.
Proof.
  unfold runVM.
  destruct (createMacPlatformConfiguration (platform w)) as [pc | e] eqn:Hpc.
  - destruct (setupVMConfiguration (platform w) pc) as [config | e] eqn:Hcfg.
    + destruct (cleanup (stopPolls w)); [| discriminate].
      cbv zeta. destruct (mainResult _) as [v |] eqn:Hres; [| discriminate].
      intros Hret. injection Hret as <- _. right. reflexivity.
    + intros Hret. injection Hret as <- _.
      left. exists e. split; [reflexivity |].
      right. exists pc. split; [reflexivity | exact Hcfg].
  - intros Hret. injection Hret as <- _.
    left. exists e. split; [reflexivity | left; reflexivity].
Qed.

(** X12: outside install mode the process exits with status 0 and prints
    nothing, or with status 1 and an error that is an error of the
    configuration or the error of the Start callback, bare or wrapped as
    "failed to start vm".  Nothing that happens while stopping - an error of
    RequestStop or of Stop - makes the process fail. *)
Theorem main_fails_on_configuration_or_start_only
    (w : World) (code : Z) (reported : goerror) :
  install w = false ->
  main w = Exited code reported ->
  (code = 0 /\ reported = None)
  \/ (code = 1
      /\ exists err,
           reported = Some err
           /\ (createMacPlatformConfiguration (platform w) = Err err
               \/ (exists platformConfig,
                      createMacPlatformConfiguration (platform w)
                      = Ok platformConfig
                      /\ setupVMConfiguration (platform w) platformConfig
                         = Err err)
               \/ (exists e0,
                      startResult w = Some (Some e0)
                      /\ (err = e0 \/ err = ErrorfW "failed to start vm" e0)))).
Proof.
  intros Hinstall. unfold main, run. rewrite Hinstall.
  destruct (runVM Background w) as [[err |] tr | | tr] eqn:Hrun;
    try discriminate.
  - intros Hexit. injection Hexit as <- <-.
    right. split; [reflexivity |]. exists err. split; [reflexivity |].
    destruct (runVM_returns _ _ _ _ Hrun) as [[e [He Hcfg]] | Hres].
    + injection He as <-. destruct Hcfg as [Hpc | Hcfg].
      * left. exact Hpc.
      * right; left. exact Hcfg.
    + right; right.
      destruct (received_is_reportable _ _ _ _ Hres) as [Hnil | [e0 [Hc Hv]]];
        [discriminate Hnil |].
      exists e0. split; [exact Hc |].
      destruct Hv as [Hv | Hv]; injection Hv as ->; [left | right]; reflexivity.
  - intros Hexit. injection Hexit as <- <-. left. split; reflexivity.
Qed.

Lemma main_fails_on_configuration_or_start_only_witness :
  main (exampleWorld [NotPermissible] (Some (Some (PlatformError 1)))
          [VirtualMachineStateError]
          [MvCallback; MvCompletion; MvMergerSend; MvMainReceive])
  = Exited 1 (Some (ErrorfW "failed to start vm" (PlatformError 1)))
  /\ ((1 = 0 /\ Some (ErrorfW "failed to start vm" (PlatformError 1)) = None)
      \/ 1 = 1).
Proof.
  split; [reflexivity |].
  destruct (main_fails_on_configuration_or_start_only
              (exampleWorld [NotPermissible] (Some (Some (PlatformError 1)))
                 [VirtualMachineStateError]
                 [MvCallback; MvCompletion; MvMergerSend; MvMainReceive])
              1 (Some (ErrorfW "failed to start vm" (PlatformError 1)))
              eq_refl eq_refl) as [[H0 H1] | [H1 _]].
  - left. split; [exact H0 | exact H1].
  - right. exact H1.
Defined.

(** X13: when the disk image cannot be created, for a reason other than its
    existing already, no virtual machine is made or started: run returns at
    once, having only locked and unlocked the thread, with the platform's
    error wrapped twice, and the process exits with status 1. *)
Theorem disk_failure_aborts_before_start
    (ctx : Context) (w : World) (platformConfig : MacPlatformConfiguration)
    (e : error) :
  install w = false ->
  createMacPlatformConfiguration (platform w) = Ok platformConfig ->
  CreateDiskImage (platform w) (GetDiskImagePath (platform w)) (64 * GiB) = Some e ->
  IsExist (platform w) e = false ->
  let reported :=
    ErrorfW "failed to create block device configuration"
      (ErrorfW "failed to create disk image" e) in
  run ctx w = Returned (Some reported) [EvLockOSThread; EvUnlockOSThread]
  /\ main w = Exited 1 (Some reported).
Proof.
  intros Hinstall Hpc Hcreate Hexist reported.
  assert (Hrun : forall c, run c w
                 = Returned (Some reported) [EvLockOSThread; EvUnlockOSThread]).
  { intros c. unfold run. rewrite Hinstall. unfold runVM. rewrite Hpc.
    unfold setupVMConfiguration, createBlockDeviceConfiguration.
    change (64 * 1024 * 1024 * 1024) with (64 * GiB).
    rewrite Hcreate, Hexist. reflexivity. }
  split; [apply Hrun |].
  unfold main. rewrite Hrun. reflexivity.
Qed.

Lemma disk_failure_aborts_before_start_witness :
  main {| platform := examplePlatform 5 1 8 (512 * MiB) (8 * GiB)
                        (Some (PlatformError 28)) (true, None);
          install := false;
          installMacOS := fun _ => Returned None [];
          startResult := None;
          stateFeed := [];
          stopPolls := [];
          schedule := [] |}
  = Exited 1
      (Some (ErrorfW "failed to create block device configuration"
               (ErrorfW "failed to create disk image" (PlatformError 28)))).
Proof.
  apply (disk_failure_aborts_before_start Background
           {| platform := examplePlatform 5 1 8 (512 * MiB) (8 * GiB)
                            (Some (PlatformError 28)) (true, None);
              install := false;
              installMacOS := fun _ => Returned None [];
              startResult := None;
              stateFeed := [];
              stopPolls := [];
              schedule := [] |}
           examplePlatformConfig (PlatformError 28));
    reflexivity.
Defined.

(** ** Merge: which terminal signal reaches run *)

Lemma step_completion_first (m : Move) (s s' : Session) :
  step m s = Some s' -> completion_first s -> completion_first s'.
Proof.
  intros Hstep Hinv. unfold completion_first in *.
  session_cases m s Hstep; cbn in *; subst.
  - (* the callback sends its error *)
    destruct mg; cbn in *.
    + destruct Hinv as (Hobs & Hcb & Hch).
      assert (Hne : Some (Some e) <> @None goerror) by discriminate.
      destruct (Hcb Hne) as [_ Hres].
      split; [exact Hobs |]. split.
      * intros Habs. exfalso. apply Habs. reflexivity.
      * intros v _. exact Hres.
    + exact Hinv.
    + destruct Hinv as (_ & _ & Hcb & _). discriminate Hcb.
    + destruct Hinv as [Hn | (err & _ & Hcb & _)]; [left; exact Hn |].
      discriminate Hcb.
  - (* the callback was called with nil *)
    destruct mg; cbn in *.
    + destruct Hinv as (Hobs & Hcb & Hch).
      split; [exact Hobs |]. split.
      * intros Habs. exfalso. apply Habs. reflexivity.
      * exact Hch.
    + exact Hinv.
    + destruct Hinv as (_ & _ & Hcb & _). discriminate Hcb.
    + destruct Hinv as [Hn | (err & _ & Hcb & _)]; [left; exact Hn |].
      discriminate Hcb.
  - (* a stop state is taken *)
    destruct Hinv as (Hobs & _). rewrite Hobs. eexists. reflexivity.
  - (* another state is taken *)
    exact Hinv.
  - (* the loop takes a value from errCh *)
    destruct Hinv as (Hobs & Hcb & Hch). rewrite Hobs.
    split; [reflexivity |]. split; [reflexivity |].
    split; [| apply (Hch _ eq_refl)].
    destruct cb as [c |]; [| reflexivity].
    assert (Hne : Some c <> None) by discriminate.
    destruct (Hcb Hne) as [Hnone _]. discriminate Hnone.
  - (* the loop sends nil *)
    left. exact Hinv.
  - (* the loop sends the wrapped error *)
    destruct Hinv as (Hobs & _ & Hcb & Hres).
    right. exists err. split; [exact Hobs |]. split; [exact Hcb |].
    left. split; [reflexivity | exact Hres].
  - (* line 101 receives *)
    destruct mg; cbn in *.
    + destruct Hinv as (Hobs & Hcb & Hch).
      split; [exact Hobs |]. split.
      * intros Hne. destruct (Hcb Hne) as [Hnone _]. discriminate Hnone.
      * intros v Hv. discriminate Hv.
    + exact Hinv.
    + destruct Hinv as (_ & Hch & _). discriminate Hch.
    + destruct Hinv as [Hn | (err & Hobs & Hcb & Hway)]; [left; exact Hn |].
      right. exists err. split; [exact Hobs |]. split; [exact Hcb |].
      destruct Hway as [[Hch _] | [Hch _]]; [| discriminate Hch].
      injection Hch as ->. right. split; reflexivity.
Qed.

(** X14: when the one terminal signal the merge loop takes is the value sent
    by the Start callback, that signal decides what [run] returns: in every
    interleaving the value line 101 receives is that error wrapped as
    "failed to start vm", and nothing else. *)
Theorem completion_first_is_reported
    (completion : option goerror) (feed : list VirtualMachineState)
    (sched : list Move) (err v : goerror) :
  let s := exec sched (initial completion feed) in
  observed s = [TermCompletion err] ->
  mainResult s = Some v ->
  v = Some (wrapStartError err).
Proof.
  intros s Hobs Hres.
  assert (Hinv : completion_first s).
  { apply (advance_preserves completion_first step_completion_first).
    unfold completion_first, initial; cbn.
    repeat split; auto; intros; discriminate. }
  unfold completion_first in Hinv.
  destruct (merger s).
  - destruct Hinv as (Hnil & _). rewrite Hnil in Hobs. discriminate Hobs.
  - destruct Hinv as [st Hst]. rewrite Hst in Hobs. discriminate Hobs.
  - destruct Hinv as (_ & _ & _ & Hnone). rewrite Hnone in Hres. discriminate Hres.
  - destruct Hinv as [[st Hst] | (err' & Hobs' & _ & Hway)].
    + rewrite Hst in Hobs. discriminate Hobs.
    + rewrite Hobs' in Hobs. injection Hobs as ->.
      destruct Hway as [[_ Hnone] | [_ Hsome]].
      * rewrite Hnone in Hres. discriminate Hres.
      * rewrite Hsome in Hres. injection Hres as <-. reflexivity.
Qed.

Lemma completion_first_is_reported_witness :
  Some (ErrorfW "failed to start vm" (PlatformError 1))
  = Some (wrapStartError (Some (PlatformError 1))).
Proof.
  apply (completion_first_is_reported (Some (Some (PlatformError 1)))
           [VirtualMachineStateStopped]
           [MvCallback; MvCompletion; MvMergerSend; MvNotification; MvMainReceive]
           (Some (PlatformError 1))
           (Some (ErrorfW "failed to start vm" (PlatformError 1))));
    reflexivity.
Defined.

(** C3: the code breaks the claim at this input.  The platform delivers
    Stopped and calls the Start callback with an error.  The merge loop
    takes Stopped first (line 61), its one terminal signal, a success; the
    callback then sends its error into the still empty errCh (line 54)
    before the loop reaches its send of nil (line 67), which now blocks; and
    line 101 receives the callback's error, bare.  [run] returns that error
    and not the observed success. *)
Theorem late_completion_error_replaces_success :
  let w := exampleWorld [NotPermissible] (Some (Some (PlatformError 1)))
             [VirtualMachineStateStopped]
             [MvNotification; MvCallback; MvMainReceive] in
  let s := exec (schedule w) (initial (startResult w) (stateFeed w)) in
  observed s = [TermNotification VirtualMachineStateStopped]
  /\ merger s = MSendNil
  /\ errCh s = None
  /\ mainResult s = Some (Some (PlatformError 1))
  /\ verdict (run Background w) = Some (Some (PlatformError 1)).
Proof. cbv zeta. repeat split; reflexivity. Qed.
